(** * Contribution ledger of the wedding-payments app (src/app.py)

    A shallow embedding of [get_google_sheet_data], [update_google_sheet]
    and [app], and the properties of the contribution protocol.

    The spreadsheet is the only durable state.  The script reaches it
    through [get_google_sheet_data], which Streamlit memoises
    ([@st.cache_resource(ttl=3600)]): the embedding therefore carries the
    sheet and the memoised snapshot side by side.

    The sheet has the header Servicio, Objetivo, Aportado.  Names are
    text and targets are integers; a cell of the Aportado column holds an
    integer or text (a cell left blank is read as the empty text).  What
    pandas, NumPy, gspread and Streamlit do with these values is part of
    the embedding where the script depends on it: the type pandas gives
    the Aportado column, the scalar [df.loc] returns, the refusal of
    NumPy integers by the JSON encoder behind [update_cell], the
    [KeyError] on a frame without records, the range [st.progress]
    accepts, the checks [st.number_input] makes on its bounds and its
    key. *)

From Stdlib Require Import ZArith QArith Qminmax Lia.
From stdpp Require Import base list strings sorting relations.

Local Open Scope Z_scope.

(** ** Data *)

(** A cell of the Aportado column as [get_all_records] returns it. *)
Inductive Cell :=
| Int (z : Z)
| Text (t : string).

(** One record of [worksheet.get_all_records()]. *)
Record Row := mkRow { Servicio : string; Objetivo : Z; Aportado : Cell }.

(** A pandas DataFrame with the default index: the index of a record is
    its position. *)
Abbreviation DataFrame := (list Row).

(** The state outside one script run. [sheet] holds the data rows of the
    first worksheet (row 1 of the worksheet is the header, data row [i]
    is worksheet row [i + 2]); [cache] is the entry that
    [st.cache_resource] keeps for [get_google_sheet_data]; [online] tells
    whether the calls to Google Sheets go through. *)
Record World := mkWorld {
  sheet : list Row;
  cache : option DataFrame;
  online : bool
}.

(** What a run puts on the page.  Static decoration (title, headers,
    separators) carries no data and is left out. *)
Inductive Msg :=
| error_conexion                                   (* line 30 *)
| error_no_encontrado (service_name : string)      (* line 58 *)
| subheader (servicio : string)                    (* line 87 *)
| progress (value : Q)                             (* line 92 *)
| markdown_monto (aportado : Cell) (objetivo : Z)  (* line 94 *)
| success_objetivo (servicio : string)             (* line 97 *)
| success_gracias (aporte_input : Z) (servicio : string) (* line 121 *)
| warning_supera (aporte_input max_aporte : Z)     (* line 125 *)
| warning_mayor_que_0                              (* line 127 *)
| info_final.                                      (* line 130 *)

(** ** Script runs *)

(** How a piece of the script ends: normally, by [st.stop()], by
    [st.rerun()], or by an exception nobody catches. *)
Inductive Flow (A : Type) :=
| Done (a : A)
| Stopped
| Rerun
| Raised.
Arguments Done {A} a.
Arguments Stopped {A}.
Arguments Rerun {A}.
Arguments Raised {A}.

Definition Script (A : Type) : Type := World -> Flow A * World * list Msg.

Definition ret {A} (a : A) : Script A := fun w => (Done a, w, []).

Definition bind {A B} (m : Script A) (k : A -> Script B) : Script B :=
  fun w =>
    match m w with
    | (Done a, w1, out1) =>
        match k a w1 with (f, w2, out2) => (f, w2, out1 ++ out2) end
    | (Stopped, w1, out1) => (Stopped, w1, out1)
    | (Rerun, w1, out1) => (Rerun, w1, out1)
    | (Raised, w1, out1) => (Raised, w1, out1)
    end.

Notation "x <- m ;; k" := (bind m (fun x => k))
  (at level 100, m at next level, right associativity).
Notation "m ;;; k" := (bind m (fun _ => k))
  (at level 100, right associativity).

Definition show (m : Msg) : Script unit := fun w => (Done tt, w, [m]).
Definition st_stop {A} : Script A := fun w => (Stopped, w, []).
Definition st_rerun {A} : Script A := fun w => (Rerun, w, []).
Definition raise {A} : Script A := fun w => (Raised, w, []).

Definition flow_of {A} (r : Flow A * World * list Msg) : Flow A := r.1.1.
Definition world_of {A} (r : Flow A * World * list Msg) : World := r.1.2.
Definition shown {A} (r : Flow A * World * list Msg) : list Msg := r.2.

(** ** The store *)

(** The handle returned by [spreadsheet.get_worksheet(0)]. *)
Inductive Worksheet := first_worksheet.

Definition set_cache (c : option DataFrame) (w : World) : World :=
  {| sheet := sheet w; cache := c; online := online w |}.

Definition set_sheet (s : list Row) (w : World) : World :=
  {| sheet := s; cache := cache w; online := online w |}.

(** [st.cache_resource.clear()] *)
Definition cache_resource_clear : Script unit :=
  fun w => (Done tt, set_cache None w, []).

(** [get_google_sheet_data] (lines 15-35).  With an entry in the cache the
    body does not run and the entry is returned.  Otherwise the body
    reads all records; any exception is answered with [st.error] and
    [st.stop()], and then nothing is memoised. *)
Definition get_google_sheet_data : Script (DataFrame * Worksheet) :=
  fun w =>
    match cache w with
    | Some df => (Done (df, first_worksheet), w, [])
    | None =>
        if online w then
          let df := sheet w in
          (Done (df, first_worksheet), set_cache (Some df) w, [])
        else (show error_conexion ;;; st_stop) w
    end.

(** ** Values as pandas and NumPy hand them out *)

Definition int64_min : Z := - 2 ^ 63.
Definition int64_max : Z := 2 ^ 63 - 1.
Definition uint64_max : Z := 2 ^ 64 - 1.

Definition in_int64 (z : Z) : Prop := int64_min <= z <= int64_max.

(** The type pandas gives a column built from the cells of the records. *)
Inductive Dtype := dtype_int64 | dtype_uint64 | dtype_object.

Definition is_text (c : Cell) : bool :=
  match c with Text _ => true | Int _ => false end.

Definition cell_exists (p : Z -> bool) (cells : list Cell) : bool :=
  existsb (fun c => match c with Int z => p z | Text _ => false end) cells.

(** A column that holds text is an object column.  A column of integers
    is int64 when they all fit, uint64 when none is negative and they all
    fit 64 unsigned bits, and an object column of Python integers
    otherwise. *)
Definition column_dtype (cells : list Cell) : Dtype :=
  if existsb is_text cells then dtype_object
  else if cell_exists (fun z => (uint64_max <? z) || (z <? int64_min)) cells
  then dtype_object
  else if cell_exists (fun z => int64_max <? z) cells
  then (if cell_exists (fun z => z <? 0) cells then dtype_object else dtype_uint64)
  else dtype_int64.

Definition aportado_dtype (df : DataFrame) : Dtype :=
  column_dtype (Aportado <$> df).

(** A value held by the script: a Python integer, a Python string, or a
    NumPy integer scalar. *)
Inductive Scalar :=
| py_int (z : Z)
| py_str (t : string)
| np_int64 (z : Z)
| np_uint64 (z : Z).

(** [df.loc[i, 'Aportado']] for the record [r] at position [i] of [df]:
    an object column returns the Python value it holds, an integer
    column returns a NumPy scalar. *)
Definition loc_aportado (df : DataFrame) (r : Row) : Scalar :=
  match Aportado r with
  | Text t => py_str t
  | Int z =>
      match aportado_dtype df with
      | dtype_object => py_int z
      | dtype_int64 => np_int64 z
      | dtype_uint64 => np_uint64 z
      end
  end.

Definition wrap_int64 (z : Z) : Z := (z - int64_min) mod 2 ^ 64 + int64_min.
Definition wrap_uint64 (z : Z) : Z := z mod 2 ^ 64.

(** [current_amount + amount] (line 53), [amount] being a Python
    integer; [None] stands for an exception.  Python integers add
    exactly; text and an integer do not add ([TypeError]); a NumPy
    scalar and a Python integer that fits its type add in that type and
    wrap around, and a Python integer that does not fit is refused
    ([OverflowError], as NumPy 2 does). *)
Definition add_amount (current : Scalar) (amount : Z) : option Scalar :=
  match current with
  | py_int z => Some (py_int (z + amount))
  | py_str _ => None
  | np_int64 z =>
      if (int64_min <=? amount) && (amount <=? int64_max)
      then Some (np_int64 (wrap_int64 (z + amount)))
      else None
  | np_uint64 z =>
      if (0 <=? amount) && (amount <=? uint64_max)
      then Some (np_uint64 (wrap_uint64 (z + amount)))
      else None
  end.

(** Writing the cell [value] into column [col] of a record.  Names are
    text and targets are integers in this embedding: a value of another
    type written to column 1 or 2 is not represented.  Columns past 3
    are not part of the records. *)
Definition set_column (col : nat) (value : Cell) (r : Row) : Row :=
  match col with
  | 1%nat =>
      match value with
      | Text t => {| Servicio := t; Objetivo := Objetivo r; Aportado := Aportado r |}
      | Int _ => r
      end
  | 2%nat =>
      match value with
      | Int z => {| Servicio := Servicio r; Objetivo := z; Aportado := Aportado r |}
      | Text _ => r
      end
  | 3%nat => {| Servicio := Servicio r; Objetivo := Objetivo r; Aportado := value |}
  | _ => r
  end.

(** [worksheet.update_cell(row, col, value)], rows and columns counted
    from 1, row 1 being the header.  gspread sends the value as JSON:
    the encoder refuses a NumPy integer ([TypeError]) before anything is
    sent; a Python value is sent, and the call raises when the sheet is
    out of reach.  The header and the rows past the data are not
    represented; [update_google_sheet] only writes a row it has just
    found among the data. *)
Definition update_cell (_ : Worksheet) (row col : nat) (value : Scalar) : Script unit :=
  fun w =>
    let write (c : Cell) :=
      if online w then
        if (2 <=? row)%nat
        then (Done tt, set_sheet (alter (set_column col c) (row - 2)%nat (sheet w)) w, [])
        else (Done tt, w, [])
      else (Raised, w, []) in
    match value with
    | py_int z => write (Int z)
    | py_str t => write (Text t)
    | np_int64 _ => (Raised, w, [])
    | np_uint64 _ => (Raised, w, [])
    end.

(** [df[df['Servicio'] == service_name].index]: the positions of the
    records with that name, in order; [i] is the position of the head. *)
Fixpoint index_where (service_name : string) (df : DataFrame) (i : nat) : list nat :=
  match df with
  | [] => []
  | r :: rest =>
      if String.eqb (Servicio r) service_name
      then i :: index_where service_name rest (S i)
      else index_where service_name rest (S i)
  end.

(** [update_google_sheet(worksheet, service_name, amount)] (lines 37-58).
    A frame built from no records has no columns, and [df['Servicio']]
    on line 45 then raises [KeyError]. *)
Definition update_google_sheet (worksheet : Worksheet) (service_name : string)
    (amount : Z) : Script unit :=
  cache_resource_clear ;;;
  latest <- get_google_sheet_data ;;
  let df_latest := latest.1 in
  match df_latest with
  | [] => raise
  | _ :: _ =>
      let row_index_in_df := index_where service_name df_latest 0 in
      match row_index_in_df with
      | i :: _ =>
          let gspread_row_index := (i + 2)%nat in
          match df_latest !! i with
          | Some r =>
              let current_amount := loc_aportado df_latest r in
              match add_amount current_amount amount with
              | Some new_amount =>
                  update_cell worksheet gspread_row_index 3 new_amount
              | None => raise
              end
          | None => raise
          end
      | [] => show (error_no_encontrado service_name)
      end
  end.

(** ** The page *)

(** What the visitor did before this run: the value standing in each
    number input and which button was pressed, both keyed by the name of
    the service ([key=f"input_{servicio}"], [key=f"button_{servicio}"]).
    The browser keeps the value of an input within the bounds of the
    widget; the script does not rely on that, and neither does the
    embedding: any integer may stand in an input. *)
Record UI := mkUI {
  number_input : string -> Z;
  button : string -> bool
}.

(** Line 85, with exact rationals for Python's float division. *)
Definition progreso_porcentaje (aportado objetivo : Z) : Q :=
  if objetivo >? 0
  then Qmin 100 ((inject_Z aportado / inject_Z objetivo) * 100)
  else 0%Q.

(** Line 85 on a cell of the rendered record: the division is only
    evaluated for a positive target, and text cannot be divided
    ([TypeError]). *)
Definition progreso_de (aportado : Cell) (objetivo : Z) : Script Q :=
  match aportado with
  | Int z => ret (progreso_porcentaje z objetivo)
  | Text _ => if objetivo >? 0 then raise else ret 0%Q
  end.

(** [st.progress(value)] for a float: a value outside [0.0, 1.0] is
    refused with an exception. *)
Definition st_progress (value : Q) : Script unit :=
  if Qle_bool 0 value && Qle_bool value 1
  then show (progress value)
  else raise.

Definition js_max_safe_integer : Z := 2 ^ 53 - 1.

(** [st.number_input(..., min_value=0, max_value=max_value, value=0,
    step=5, key=f"input_{key}")] (lines 106-113) on integers.  [keys]
    are the keys of the inputs already created in this run.  Streamlit
    refuses a second widget with the same key, a maximum below the
    default value 0, and a bound that JavaScript cannot hold exactly;
    otherwise the call returns the value standing in the input. *)
Definition st_number_input (ui : UI) (keys : list string) (key : string)
    (max_value : Z) : Script Z :=
  if existsb (String.eqb key) keys then raise
  else if (0 <=? max_value) && (max_value <=? js_max_safe_integer)
  then ret (number_input ui key)
  else raise.

(** Lines 116-127: what happens when the button of a rendered record is
    pressed.  [servicio], [objetivo], [aportado] and [max_aporte] are the
    values of the record being rendered; this is the operation the
    specification calls [contribute].  [time.sleep(1)] changes nothing
    and is left out. *)
Definition contribute (worksheet : Worksheet) (servicio : string)
    (objetivo aportado max_aporte aporte_input : Z) : Script unit :=
  if aporte_input >? 0 then
    if aportado + aporte_input <=? objetivo then
      update_google_sheet worksheet servicio aporte_input ;;;
      show (success_gracias aporte_input servicio) ;;;
      st_rerun
    else show (warning_supera aporte_input max_aporte)
  else show warning_mayor_que_0.

(** Lines 81-128: the body of the loop over the records.  The values of
    a rendered record are Python values; comparing text with the target
    on line 96 raises [TypeError].  [keys] are the keys of the inputs
    created so far in this run; the body returns them with its own. *)
Definition render_row (ui : UI) (worksheet : Worksheet) (keys : list string)
    (row : Row) : Script (list string) :=
  let servicio := Servicio row in
  let objetivo := Objetivo row in
  let aportado := Aportado row in
  progreso <- progreso_de aportado objetivo ;;
  show (subheader servicio) ;;;
  st_progress (progreso / 100)%Q ;;;
  show (markdown_monto aportado objetivo) ;;;
  match aportado with
  | Text _ => raise
  | Int aportado =>
      if aportado >=? objetivo
      then show (success_objetivo servicio) ;;; ret keys
      else
        let max_aporte := objetivo - aportado in
        aporte_input <- st_number_input ui keys servicio max_aporte ;;
        (if button ui servicio
         then contribute worksheet servicio objetivo aportado max_aporte aporte_input
         else ret tt) ;;;
        ret (servicio :: keys)
  end.

Fixpoint for_rows (ui : UI) (worksheet : Worksheet) (keys : list string)
    (rows : list Row) : Script unit :=
  match rows with
  | [] => ret tt
  | row :: rest =>
      keys' <- render_row ui worksheet keys row ;;
      for_rows ui worksheet keys' rest
  end.

(** The order of [df.sort_values(by='Servicio')]: names are compared as
    Python compares strings, character by character.  pandas promises no
    order among records of equal name; what is proved about the order of
    rendering is proved for sheets with distinct names. *)
Definition by_servicio (r1 r2 : Row) : Prop :=
  String.leb (Servicio r1) (Servicio r2) = true.

#[global] Instance by_servicio_dec : RelDecision by_servicio.
Proof. intros r1 r2. unfold by_servicio. apply _. Defined.

Definition sort_values (df : DataFrame) : DataFrame := merge_sort by_servicio df.

(** Lines 72 and 78: what the specification calls [listServices].  On a
    frame without records, which has no columns, sorting by 'Servicio'
    raises [KeyError]. *)
Definition listServices : Script (DataFrame * Worksheet) :=
  loaded <- get_google_sheet_data ;;
  match loaded.1 with
  | [] => raise
  | _ :: _ => ret (sort_values loaded.1, loaded.2)
  end.

(** [app] (lines 61-130). *)
Definition app (ui : UI) : Script unit :=
  loaded <- listServices ;;
  for_rows ui loaded.2 [] loaded.1 ;;;
  show info_final.

(** ** Sessions *)

Definition no_click : UI := {| number_input := fun _ => 0; button := fun _ => false |}.

(** The visitor typed [a] into the input of [s] and pressed its button. *)
Definition click (s : string) (a : Z) : UI :=
  {| number_input := fun k => if String.eqb k s then a else 0;
     button := fun k => String.eqb k s |}.

Definition ttl_expired (w : World) : World := set_cache None w.
Definition set_online (b : bool) (w : World) : World :=
  {| sheet := sheet w; cache := cache w; online := b |}.

(** What can happen between two observations of the world when the app is
    the only writer of the sheet: a script run, the expiry of the cache
    entry, a change of connectivity. *)
Inductive session_step : World -> World -> Prop :=
| step_run ui w : session_step w (world_of (app ui w))
| step_ttl w : session_step w (ttl_expired w)
| step_net b w : session_step w (set_online b w).

Definition names (df : DataFrame) : list string := Servicio <$> df.

(** A numeric contributed amount lies between 0 and the target. *)
Definition row_ok (r : Row) : Prop :=
  match Aportado r with
  | Int z => 0 <= z <= Objetivo r
  | Text _ => True
  end.

(** A freshly started server on a sheet with distinct names. *)
Definition cold_start (w : World) : Prop :=
  cache w = None /\ NoDup (names (sheet w)).

Definition reachable (w : World) : Prop :=
  exists w0, cold_start w0 /\ rtc session_step w0 w.

(** ** Worlds used in the examples *)

Definition catering (aportado : Z) : Row :=
  {| Servicio := "Catering"; Objetivo := 500; Aportado := Int aportado |}.

(** A service whose Aportado cell was left blank. *)
Definition zeta_blank : Row :=
  {| Servicio := "Zeta"; Objetivo := 100; Aportado := Text "" |}.

(** A freshly started server on a sheet of integers. *)
Definition w_catering_480 : World :=
  {| sheet := [catering 480]; cache := None; online := true |}.

(** A freshly started server on a sheet with a blank Aportado cell. *)
Definition w_blank_480 : World :=
  {| sheet := [catering 480; zeta_blank]; cache := None; online := true |}.

(** The world after a first contribution of 20, and of 5, to Catering. *)
Definition w_blank_after_20 : World :=
  world_of (app (click "Catering" 20) w_blank_480).

Definition w_blank_after_5 : World :=
  world_of (app (click "Catering" 5) w_blank_480).

(** The Catering record is in the cache but no longer in the sheet. *)
Definition w_catering_removed : World :=
  {| sheet := [{| Servicio := "Flores"; Objetivo := 100; Aportado := Int 0 |}];
     cache := Some [catering 480];
     online := true |}.

(** ** Notions used in the statements *)

(** The record [r] with the integer [z] in its Aportado cell. *)
Definition with_aportado (z : Z) (r : Row) : Row :=
  {| Servicio := Servicio r; Objetivo := Objetivo r; Aportado := Int z |}.

(** [contribute] as [render_row] calls it on a record that shows
    [aportado] of [objetivo]. *)
Definition contribute_row (servicio : string) (objetivo aportado : Z)
    (aporte_input : Z) : Script unit :=
  contribute first_worksheet servicio objetivo aportado
    (objetivo - aportado) aporte_input.



(** [c'] is the cell [c] after some contributions. *)
Definition amount_le (c c' : Cell) : Prop :=
  match c, c' with
  | Int z, Int z' => z <= z'
  | Text t, Text t' => t = t'
  | _, _ => False
  end.

(** [r'] is the record [r] after some contributions: same name, same
    target, and no less contributed. *)
Definition row_behind (r r' : Row) : Prop :=
  Servicio r = Servicio r' /\ Objetivo r = Objetivo r'
  /\ amount_le (Aportado r) (Aportado r').

Definition behind (df df' : list Row) : Prop := Forall2 row_behind df df'.

(** What a call of [update_google_sheet] for [s] and [a] leaves behind:
    an empty cache when the sheet was out of reach; the sheet in the
    cache and no write; or the sheet in the cache and [a] added to the
    integer of the first record named [s], the Aportado column being an
    object column. *)
Inductive after_update (w : World) (s : string) (a : Z) : World -> Prop :=
| upd_cleared :
    online w = false -> after_update w s a (set_cache None w)
| upd_fetched :
    online w = true -> after_update w s a (set_cache (Some (sheet w)) w)
| upd_written i latest z :
    online w = true ->
    aportado_dtype (sheet w) = dtype_object ->
    sheet w !! i = Some latest -> Servicio latest = s ->
    Aportado latest = Int z ->
    (forall j r, (j < i)%nat -> sheet w !! j = Some r -> Servicio r <> s) ->
    after_update w s a
      {| sheet := <[i := with_aportado (z + a) latest]> (sheet w);
         cache := Some (sheet w);
         online := online w |}.

(** What the listing at the start of a run leaves behind. *)
Definition listed (w w1 : World) : Prop :=
  w1 = w \/ cache w = None /\ online w = true /\ w1 = set_cache (Some (sheet w)) w.

(** The memoised snapshot, when there is one, is a past state of a sheet
    with distinct names. *)
Definition cache_behind_sheet (w : World) : Prop :=
  NoDup (names (sheet w)) /\
  forall df, cache w = Some df -> behind df (sheet w).

(** The records a run renders: the memoised snapshot when there is one,
    else the sheet, sorted by name (lines 72 and 78). *)
Definition rendered (w : World) : list Row :=
  sort_values (match cache w with Some df => df | None => sheet w end).

(** The button of the rendered record [row] is pressed and its input
    holds a positive amount within the capacity that [row] shows. *)
Definition pressed_within (ui : UI) (row : Row) : Prop :=
  button ui (Servicio row) = true
  /\ 0 < number_input ui (Servicio row)
  /\ exists v, Aportado row = Int v
       /\ v + number_input ui (Servicio row) <= Objetivo row.

(** [df'] is [df] with [a] added to the integer of the first record
    named [s]. *)
Definition credited_first (df : list Row) (s : string) (a : Z) (df' : list Row) : Prop :=
  exists i latest z,
    df !! i = Some latest /\ Servicio latest = s /\ Aportado latest = Int z
    /\ (forall j r, (j < i)%nat -> df !! j = Some r -> Servicio r <> s)
    /\ df' = <[i := with_aportado (z + a) latest]> df.

Definition non_negative (r : Row) : Prop :=
  match Aportado r with
  | Int z => 0 <= z
  | Text _ => True
  end.

(** The cache is empty or holds the sheet as it stands. *)
Definition cache_current (w : World) : Prop :=
  cache w = None \/ cache w = Some (sheet w).

(** Every Aportado cell holds an integer that fits 64 signed bits. *)
Definition all_int64 (df : list Row) : Prop :=
  Forall (fun r => exists z, Aportado r = Int z /\ in_int64 z) df.

(** The messages that display a record or close the page. *)
Definition displays (m : Msg) : Prop :=
  match m with
  | subheader _ | progress _ | markdown_monto _ _
  | success_objetivo _ | info_final => True
  | _ => False
  end.

(** ** Elementary facts *)

Lemma index_where_head name df k i rest :
  index_where name df k = i :: rest ->
  exists j r, i = (k + j)%nat /\ df !! j = Some r /\ Servicio r = name /\
    forall j' r', (j' < j)%nat -> df !! j' = Some r' -> Servicio r' <> name.
Proof.
  revert k. induction df as [|r0 df IH]; intros k H; simpl in H; [discriminate|].
  destruct (String.eqb (Servicio r0) name) eqn:E.
  - inversion H; subst. exists 0%nat, r0. repeat split.
    + lia.
    + by apply String.eqb_eq.
    + intros j' r' Hlt. lia.
  - apply IH in H as (j & r & -> & Hj & Hr & Hmin).
    exists (S j), r. repeat split; [lia | done | done |].
    intros [|j'] r' Hlt Hl; simpl in Hl.
    + inversion Hl; subst. by apply String.eqb_neq.
    + apply (Hmin j'); [lia | done].
Qed.

Lemma index_where_nil name df k :
  index_where name df k = [] <-> name ∉ names df.
Proof.
  revert k. induction df as [|r0 df IH]; intros k; simpl.
  - split; [intros _; apply not_elem_of_nil | done].
  - destruct (String.eqb (Servicio r0) name) eqn:E.
    + apply String.eqb_eq in E. split; [discriminate|].
      intros Hn. exfalso. apply Hn. rewrite E. left.
    + apply String.eqb_neq in E. rewrite IH, not_elem_of_cons.
      split; [intros Hn; split; [congruence | done] | tauto].
Qed.

Lemma alter_set_column_3 c i r (df : DataFrame) :
  df !! i = Some r ->
  alter (set_column 3 c) i df
  = <[i := {| Servicio := Servicio r; Objetivo := Objetivo r; Aportado := c |}]> df.
Proof.
  revert i. induction df as [|r0 df IH]; intros [|i] H; simpl in *; try done.
  - by inversion H; subst.
  - f_equal. by apply IH.
Qed.

(** [update_google_sheet], case by case. *)
Lemma update_google_sheet_eq ws name a w :
  update_google_sheet ws name a w
  = if online w then
      match sheet w with
      | [] => (Raised, set_cache (Some (sheet w)) w, [])
      | _ :: _ =>
          match index_where name (sheet w) 0 with
          | [] => (Done tt, set_cache (Some (sheet w)) w, [error_no_encontrado name])
          | i :: _ =>
              match sheet w !! i with
              | None => (Raised, set_cache (Some (sheet w)) w, [])
              | Some r =>
                  match add_amount (loc_aportado (sheet w) r) a with
                  | Some (py_int z) =>
                      (Done tt,
                       {| sheet := <[i := with_aportado z r]> (sheet w);
                          cache := Some (sheet w);
                          online := online w |}, [])
                  | Some (py_str t) =>
                      (Done tt,
                       {| sheet := <[i := {| Servicio := Servicio r;
                                             Objetivo := Objetivo r;
                                             Aportado := Text t |}]> (sheet w);
                          cache := Some (sheet w);
                          online := online w |}, [])
                  | _ => (Raised, set_cache (Some (sheet w)) w, [])
                  end
              end
          end
      end
    else (Stopped, set_cache None w, [error_conexion]).
Proof.
  unfold update_google_sheet, bind, cache_resource_clear, get_google_sheet_data.
  simpl. destruct (online w) eqn:Hon; [|reflexivity]. simpl.
  destruct (sheet w) as [|r0 df] eqn:Hs; [reflexivity|].
  rewrite <- Hs.
  destruct (index_where name (sheet w) 0) as [|i rest]; [reflexivity|].
  destruct (sheet w !! i) as [r|] eqn:Hr; [|reflexivity].
  destruct (add_amount (loc_aportado (sheet w) r) a) as [[z|t|z|z]|];
    try reflexivity.
  - unfold update_cell, set_sheet. simpl. rewrite Hon.
    replace (i + 2)%nat with (S (S i)) by lia. simpl. rewrite Nat.sub_0_r.
    by rewrite (alter_set_column_3 (Int z) i r).
  - unfold update_cell, set_sheet. simpl. rewrite Hon.
    replace (i + 2)%nat with (S (S i)) by lia. simpl. rewrite Nat.sub_0_r.
    by rewrite (alter_set_column_3 (Text t) i r).
Qed.

Lemma add_amount_py_int current a z' :
  add_amount current a = Some (py_int z') ->
  exists z, current = py_int z /\ z' = z + a.
Proof.
  destruct current as [z|t|z|z]; simpl.
  - intros [= <-]. eauto.
  - discriminate.
  - destruct (_ && _); discriminate.
  - destruct (_ && _); discriminate.
Qed.

Lemma add_amount_not_str current a t : add_amount current a <> Some (py_str t).
Proof.
  destruct current as [z|t'|z|z]; simpl; try discriminate;
    destruct (_ && _); discriminate.
Qed.

Lemma loc_aportado_py_int df r z :
  loc_aportado df r = py_int z ->
  Aportado r = Int z /\ aportado_dtype df = dtype_object.
Proof.
  unfold loc_aportado. destruct (Aportado r) as [z0|t]; [|discriminate].
  destruct (aportado_dtype df); try discriminate. by intros [= ->].
Qed.

Lemma loc_aportado_object df r z :
  aportado_dtype df = dtype_object -> Aportado r = Int z ->
  loc_aportado df r = py_int z.
Proof. unfold loc_aportado. by intros -> ->. Qed.

(** What [update_google_sheet] leaves behind and what it shows. *)
Lemma update_google_sheet_outcome ws name a w :
  exists f w' out,
    update_google_sheet ws name a w = (f, w', out)
    /\ after_update w name a w'
    /\ (forall m, m ∈ out -> m = error_conexion \/ m = error_no_encontrado name).
Proof.
  rewrite update_google_sheet_eq. destruct (online w) eqn:Hon.
  2: { do 3 eexists. split; [reflexivity|]. split; [by constructor|].
       intros m Hm. apply list_elem_of_singleton in Hm. by left. }
  assert (Hnone : forall m : Msg, m ∈ [] ->
            m = error_conexion \/ m = error_no_encontrado name).
  { intros m Hm. by apply elem_of_nil in Hm. }
  destruct (sheet w) as [|r0 df] eqn:Hs.
  { do 3 eexists. split; [reflexivity|]. split; [|done].
    rewrite <- Hs. by constructor. }
  rewrite <- Hs.
  destruct (index_where name (sheet w) 0) as [|i rest] eqn:Hidx.
  { do 3 eexists. split; [reflexivity|]. split; [by constructor|].
    intros m Hm. apply list_elem_of_singleton in Hm. by right. }
  destruct (index_where_head _ _ _ _ _ Hidx) as (j & r & -> & Hj & Hr & Hmin).
  simpl. rewrite Hj.
  destruct (add_amount (loc_aportado (sheet w) r) a) as [[z|t|z|z]|] eqn:Hadd;
    try (do 3 eexists; split; [reflexivity|]; split; [by constructor | done]).
  - apply add_amount_py_int in Hadd as (z0 & Hloc & ->).
    apply loc_aportado_py_int in Hloc as [Hcell Hdt].
    do 3 eexists. split; [reflexivity|]. split; [|done].
    rewrite <- Hon. by apply upd_written.
  - by apply add_amount_not_str in Hadd.
Qed.

(** The three ways [contribute] can go. *)
Lemma contribute_not_positive ws servicio objetivo aportado max_aporte a w :
  a <= 0 ->
  contribute ws servicio objetivo aportado max_aporte a w
  = (Done tt, w, [warning_mayor_que_0]).
Proof.
  intros Ha. unfold contribute.
  destruct (Z.gtb_spec a 0); [lia | reflexivity].
Qed.

Lemma contribute_over_capacity ws servicio objetivo aportado max_aporte a w :
  0 < a -> objetivo < aportado + a ->
  contribute ws servicio objetivo aportado max_aporte a w
  = (Done tt, w, [warning_supera a max_aporte]).
Proof.
  intros Ha Hcap. unfold contribute.
  destruct (Z.gtb_spec a 0); [| lia].
  destruct (Z.leb_spec (aportado + a) objetivo); [lia | reflexivity].
Qed.

Lemma contribute_passes ws servicio objetivo aportado max_aporte a w :
  0 < a -> aportado + a <= objetivo ->
  contribute ws servicio objetivo aportado max_aporte a w
  = (update_google_sheet ws servicio a ;;;
     show (success_gracias a servicio) ;;; st_rerun) w.
Proof.
  intros Ha Hcap. unfold contribute.
  destruct (Z.gtb_spec a 0); [| lia].
  destruct (Z.leb_spec (aportado + a) objetivo); [reflexivity | lia].
Qed.

(** A call that passes the checks ends as [update_google_sheet] does,
    or, when that returns, with the thank-you message and the rerun. *)
Lemma contribute_passes_eq ws servicio objetivo aportado max_aporte a w :
  0 < a -> aportado + a <= objetivo ->
  contribute ws servicio objetivo aportado max_aporte a w
  = match update_google_sheet ws servicio a w with
    | (Done _, w', out) => (Rerun, w', out ++ [success_gracias a servicio])
    | (f, w', out) => (f, w', out)
    end.
Proof.
  intros Ha Hcap. rewrite contribute_passes by done. unfold bind.
  destruct (update_google_sheet ws servicio a w) as [[f w'] out].
  by destruct f as [[]| | |].
Qed.

(** ** What one run does to the world *)

Lemma contribute_outcome ws servicio objetivo aportado max_aporte a w :
  exists f w' out,
    contribute ws servicio objetivo aportado max_aporte a w = (f, w', out)
    /\ (w' = w
        \/ 0 < a /\ aportado + a <= objetivo /\ f <> Done tt
           /\ after_update w servicio a w').
Proof.
  destruct (Z.le_gt_cases a 0) as [Ha|Ha].
  { do 3 eexists. split; [by apply contribute_not_positive | by left]. }
  destruct (Z.le_gt_cases (aportado + a) objetivo) as [Hcap|Hcap].
  2: { do 3 eexists. split; [apply contribute_over_capacity; lia | by left]. }
  rewrite contribute_passes_eq by lia.
  destruct (update_google_sheet_outcome ws servicio a w)
    as (f & w' & out & -> & Hupd & _).
  destruct f as [[]| | |];
    (do 3 eexists; split; [reflexivity|]; right; repeat split; done || lia).
Qed.

Lemma render_row_outcome ui ws keys row w :
  exists f w' out,
    render_row ui ws keys row w = (f, w', out)
    /\ (w' = w
        \/ pressed_within ui row /\ (forall k, f <> Done k)
           /\ after_update w (Servicio row) (number_input ui (Servicio row)) w').
Proof.
  unfold render_row, progreso_de, st_progress, st_number_input.
  destruct (Aportado row) as [v|t] eqn:Hv.
  2: { destruct (Objetivo row >? 0);
         do 3 eexists; (split; [reflexivity | by left]). }
  unfold bind, ret, show, raise.
  destruct (Qle_bool 0 (progreso_porcentaje v (Objetivo row) / 100)
            && Qle_bool (progreso_porcentaje v (Objetivo row) / 100) 1);
    [|do 3 eexists; split; [reflexivity | by left]].
  destruct (v >=? Objetivo row);
    [do 3 eexists; split; [reflexivity | by left]|].
  destruct (existsb (String.eqb (Servicio row)) keys);
    [do 3 eexists; split; [reflexivity | by left]|].
  destruct ((0 <=? Objetivo row - v) && (Objetivo row - v <=? js_max_safe_integer));
    [|do 3 eexists; split; [reflexivity | by left]].
  destruct (button ui (Servicio row)) eqn:Hb;
    [|do 3 eexists; split; [reflexivity | by left]].
  destruct (contribute_outcome ws (Servicio row) (Objetivo row) v
              (Objetivo row - v) (number_input ui (Servicio row)) w)
    as (f & w' & out & -> & Hw').
  destruct f as [[]| | |]; (do 3 eexists; split; [reflexivity|]);
    (destruct Hw' as [-> | (Ha & Hcap & Hf & Hupd)]; [by left|]);
    try done;
    (right; split; [|done]; repeat split; eauto).
Qed.

Lemma for_rows_outcome ui ws keys rows w :
  exists f w' out,
    for_rows ui ws keys rows w = (f, w', out)
    /\ (w' = w
        \/ exists row,
             row ∈ rows /\ pressed_within ui row /\ f <> Done tt
             /\ after_update w (Servicio row) (number_input ui (Servicio row)) w').
Proof.
  revert keys. induction rows as [|row rows IH]; intros keys; simpl.
  { do 3 eexists. split; [reflexivity | by left]. }
  unfold bind.
  destruct (render_row_outcome ui ws keys row w) as (f & w' & out & -> & Hw').
  destruct f as [keys'| | |].
  - assert (w' = w) as ->.
    { destruct Hw' as [-> | (_ & Hf & _)]; [done|]. by destruct (Hf keys'). }
    destruct (IH keys') as (f2 & w2 & out2 & -> & Hw2).
    do 3 eexists. split; [reflexivity|].
    destruct Hw2 as [-> | (row' & Hin & Hrest)]; [by left|].
    right. exists row'. split; [by right | done].
  - do 3 eexists. split; [reflexivity|].
    destruct Hw' as [-> | (Hp & _ & Hupd)]; [by left|].
    right. exists row. split; [left | done].
  - do 3 eexists. split; [reflexivity|].
    destruct Hw' as [-> | (Hp & _ & Hupd)]; [by left|].
    right. exists row. split; [left | done].
  - do 3 eexists. split; [reflexivity|].
    destruct Hw' as [-> | (Hp & _ & Hupd)]; [by left|].
    right. exists row. split; [left | done].
Qed.

Lemma listServices_cases w :
  listServices w
  = match cache w with
    | Some [] => (Raised, w, [])
    | Some df => (Done (sort_values df, first_worksheet), w, [])
    | None =>
        if online w
        then match sheet w with
             | [] => (Raised, set_cache (Some (sheet w)) w, [])
             | _ :: _ =>
                 (Done (sort_values (sheet w), first_worksheet),
                  set_cache (Some (sheet w)) w, [])
             end
        else (Stopped, w, [error_conexion])
    end.
Proof.
  unfold listServices, bind, get_google_sheet_data.
  destruct (cache w) as [[|r df]|]; try reflexivity.
  destruct (online w); [|reflexivity]. simpl.
  by destruct (sheet w).
Qed.

Lemma app_world ui w :
  world_of (app ui w)
  = match cache w with
    | Some [] => w
    | Some df => world_of (for_rows ui first_worksheet [] (sort_values df) w)
    | None =>
        if online w
        then match sheet w with
             | [] => set_cache (Some (sheet w)) w
             | _ :: _ =>
                 world_of (for_rows ui first_worksheet [] (sort_values (sheet w))
                             (set_cache (Some (sheet w)) w))
             end
        else w
    end.
Proof.
  unfold app, bind. rewrite listServices_cases.
  destruct (cache w) as [[|r df]|]; [done | |].
  - simpl. destruct (for_rows ui first_worksheet [] (sort_values (r :: df)) w)
      as [[f w'] out].
    by destruct f.
  - destruct (online w); [|done]. destruct (sheet w) as [|r df] eqn:Hs; [done|].
    simpl.
    destruct (for_rows ui first_worksheet [] (sort_values (r :: df))
                (set_cache (Some (r :: df)) w)) as [[f w'] out].
    by destruct f.
Qed.

(** A run first lists (which may fill an empty cache), then renders. *)
Lemma app_outcome ui w :
  exists w1,
    listed w w1
    /\ (world_of (app ui w) = w1
        \/ exists row,
             row ∈ rendered w /\ pressed_within ui row
             /\ after_update w1 (Servicio row) (number_input ui (Servicio row))
                  (world_of (app ui w))).
Proof.
  rewrite app_world. unfold rendered, listed.
  destruct (cache w) as [[|r df]|] eqn:Hc.
  - exists w. split; [by left | by left].
  - exists w. split; [by left|].
    destruct (for_rows_outcome ui first_worksheet [] (sort_values (r :: df)) w)
      as (f & w' & out & -> & Hw').
    destruct Hw' as [-> | (row & Hin & Hp & _ & Hupd)]; [by left|].
    right. eauto.
  - destruct (online w) eqn:Hon; [|exists w; split; by left].
    exists (set_cache (Some (sheet w)) w). split; [by right|].
    destruct (sheet w) as [|r df] eqn:Hs; [by left|]. rewrite <- Hs.
    destruct (for_rows_outcome ui first_worksheet [] (sort_values (sheet w))
                (set_cache (Some (sheet w)) w))
      as (f & w' & out & -> & Hw').
    destruct Hw' as [-> | (row & Hin & Hp & _ & Hupd)]; [by left|].
    right. eauto.
Qed.

(** ** Records never lose contributions *)

Lemma amount_le_refl c : amount_le c c.
Proof. destruct c; simpl; [lia | done]. Qed.

Lemma row_behind_refl r : row_behind r r.
Proof. unfold row_behind. auto using amount_le_refl. Qed.

Lemma behind_refl df : behind df df.
Proof. induction df; constructor; auto using row_behind_refl. Qed.

Lemma behind_trans df1 df2 df3 : behind df1 df2 -> behind df2 df3 -> behind df1 df3.
Proof.
  unfold behind. intros H12 H23.
  eapply Forall2_trans; [| exact H12 | exact H23].
  unfold row_behind. intros r1 r2 r3 (? & ? & H1) (? & ? & H2).
  repeat split; [congruence | congruence |].
  destruct (Aportado r1), (Aportado r2), (Aportado r3); simpl in *;
    try done; [lia | congruence].
Qed.

Lemma behind_written (df : list Row) i r z a :
  0 <= a -> df !! i = Some r -> Aportado r = Int z ->
  behind df (<[i := with_aportado (z + a) r]> df).
Proof.
  intros Ha Hr Hz. unfold behind.
  rewrite <- (list_insert_id df i r Hr) at 1.
  apply Forall2_insert; [apply behind_refl|].
  unfold row_behind, with_aportado. simpl. rewrite Hz. simpl.
  repeat split; lia.
Qed.

Lemma behind_names df df' : behind df df' -> names df = names df'.
Proof.
  unfold names. induction 1 as [|r r' df df' (Hn & _) _ IH]; [done|].
  rewrite !fmap_cons. by rewrite Hn, IH.
Qed.

Lemma names_written (df : list Row) i r z :
  df !! i = Some r -> names (<[i := with_aportado z r]> df) = names df.
Proof.
  unfold names. rewrite list_fmap_insert. intros Hr.
  apply list_insert_id. by rewrite list_lookup_fmap, Hr.
Qed.

Lemma listed_sheet w w1 : listed w w1 -> sheet w1 = sheet w.
Proof. by intros [-> | (_ & _ & ->)]. Qed.

Lemma after_update_behind w s a w' :
  0 <= a -> after_update w s a w' -> behind (sheet w) (sheet w').
Proof.
  intros Ha [| |i latest z]; simpl; try apply behind_refl.
  by apply behind_written.
Qed.

Lemma session_step_behind w w' : session_step w w' -> behind (sheet w) (sheet w').
Proof.
  destruct 1 as [ui w| |]; simpl; try apply behind_refl.
  destruct (app_outcome ui w)
    as (w1 & Hl & [-> | (row & _ & (_ & Ha & _) & Hupd)]).
  - rewrite (listed_sheet _ _ Hl). apply behind_refl.
  - rewrite <- (listed_sheet _ _ Hl).
    eapply after_update_behind; [|exact Hupd]. lia.
Qed.

Lemma session_behind w w' : rtc session_step w w' -> behind (sheet w) (sheet w').
Proof.
  induction 1 as [|w1 w2 w3 Hstep _ IH]; [apply behind_refl|].
  eapply behind_trans; [by apply session_step_behind | exact IH].
Qed.

(** ** The cache is a past state of the sheet *)

Lemma listed_inv w w1 : cache_behind_sheet w -> listed w w1 -> cache_behind_sheet w1.
Proof.
  intros Hinv [-> | (_ & _ & ->)]; [done|].
  destruct Hinv as [Hnd _]. split; [done|]. simpl. intros df [= <-]. apply behind_refl.
Qed.

Lemma after_update_inv w s a w' :
  0 <= a -> cache_behind_sheet w -> after_update w s a w' -> cache_behind_sheet w'.
Proof.
  intros Ha [Hnd _] [| |i latest z Hon Hdt Hl Hs Hz Hmin]; split; simpl; try done.
  - intros df [= <-]. apply behind_refl.
  - by rewrite names_written.
  - intros df [= <-]. by apply behind_written.
Qed.

Lemma session_step_inv w w' :
  cache_behind_sheet w -> session_step w w' -> cache_behind_sheet w'.
Proof.
  intros Hinv Hstep. destruct Hstep as [ui w| |].
  - destruct (app_outcome ui w)
      as (w1 & Hl & [-> | (row & _ & (_ & Ha & _) & Hupd)]).
    + by apply (listed_inv w).
    + eapply (after_update_inv w1); [| |exact Hupd].
      * lia.
      * by apply (listed_inv w).
  - destruct Hinv as [Hnd _]. split; [done|]. simpl. discriminate.
  - done.
Qed.

Lemma reachable_inv w : reachable w -> cache_behind_sheet w.
Proof.
  intros (w0 & [Hc Hnd] & Hsteps).
  assert (Hinv0 : cache_behind_sheet w0).
  { split; [done|]. rewrite Hc. discriminate. }
  clear Hc Hnd. induction Hsteps as [|w1 w2 w3 Hstep _ IH]; [done|].
  apply IH. by apply (session_step_inv w1).
Qed.

(** ** Sorting and names *)

Lemma sort_values_elem_of (df : list Row) r : r ∈ sort_values df <-> r ∈ df.
Proof. unfold sort_values. by rewrite merge_sort_Permutation. Qed.

Lemma sort_values_names_NoDup (df : list Row) :
  NoDup (names df) -> NoDup (names (sort_values df)).
Proof.
  unfold names, sort_values. by rewrite merge_sort_Permutation.
Qed.

Lemma sort_values_nil (df : list Row) : sort_values df = [] -> df = [].
Proof.
  intros H. apply Permutation_nil_r.
  rewrite <- H. unfold sort_values. by rewrite merge_sort_Permutation.
Qed.

Lemma same_name_same_record (df : list Row) i j r r' :
  NoDup (names df) -> df !! i = Some r -> df !! j = Some r' ->
  Servicio r = Servicio r' -> i = j /\ r = r'.
Proof.
  intros Hnd Hi Hj Hs.
  assert (Hi' : names df !! i = Some (Servicio r)).
  { unfold names. by rewrite list_lookup_fmap, Hi. }
  assert (Hj' : names df !! j = Some (Servicio r)).
  { unfold names. by rewrite list_lookup_fmap, Hj, Hs. }
  pose proof (NoDup_lookup _ _ _ _ Hnd Hi' Hj') as ->.
  split; [done | congruence].
Qed.

Lemma rendered_current w : cache_current w -> rendered w = sort_values (sheet w).
Proof. unfold rendered. by intros [-> | ->]. Qed.

Lemma index_where_unique s (df : list Row) i latest :
  NoDup (names df) -> df !! i = Some latest -> Servicio latest = s ->
  exists rest, index_where s df 0 = i :: rest.
Proof.
  intros Hnd Hl Hs.
  assert (Hi : names df !! i = Some s).
  { unfold names. by rewrite list_lookup_fmap, Hl, <- Hs. }
  destruct (index_where s df 0) as [|k rest] eqn:E.
  - apply index_where_nil in E. exfalso. apply E.
    by apply list_elem_of_lookup_2 with i.
  - destruct (index_where_head _ _ _ _ _ E) as (j & r & -> & Hj & Hr & _).
    assert (Hj' : names df !! j = Some s).
    { unfold names. by rewrite list_lookup_fmap, Hj, <- Hr. }
    rewrite (NoDup_lookup _ _ _ _ Hnd Hj' Hi). eauto.
Qed.

(** ** The type of the Aportado column *)

Lemma all_int64_no_text (df : list Row) :
  all_int64 df -> existsb is_text (Aportado <$> df) = false.
Proof.
  induction 1 as [|r df (z & Hz & _) _ IH]; [done|].
  rewrite fmap_cons. simpl. rewrite Hz. simpl. exact IH.
Qed.

Lemma all_int64_cell_exists (df : list Row) (p : Z -> bool) :
  all_int64 df -> (forall z, in_int64 z -> p z = false) ->
  cell_exists p (Aportado <$> df) = false.
Proof.
  intros Hall Hp. unfold cell_exists.
  induction Hall as [|r df (z & Hz & Hr) _ IH]; [done|].
  rewrite fmap_cons. simpl. rewrite Hz, (Hp z Hr). simpl. exact IH.
Qed.

Lemma all_int64_dtype (df : list Row) :
  all_int64 df -> aportado_dtype df = dtype_int64.
Proof.
  intros Hall. unfold aportado_dtype, column_dtype.
  rewrite (all_int64_no_text df Hall).
  rewrite !(all_int64_cell_exists df _ Hall); [done | |].
  - unfold in_int64, int64_min, int64_max. intros z Hz. apply Z.ltb_ge. lia.
  - unfold in_int64, int64_min, int64_max, uint64_max. intros z Hz.
    apply orb_false_iff. split; apply Z.ltb_ge; lia.
Qed.

Lemma text_cell_dtype (df : list Row) r t :
  r ∈ df -> Aportado r = Text t -> aportado_dtype df = dtype_object.
Proof.
  intros Hin Ht. unfold aportado_dtype, column_dtype.
  assert (H : existsb is_text (Aportado <$> df) = true).
  { apply existsb_exists. exists (Aportado r). split.
    - apply list_elem_of_In. by apply list_elem_of_fmap_2.
    - by rewrite Ht. }
  by rewrite H.
Qed.

(** ** Calls that end with the thank-you message *)

Lemma index_where_first name (df : list Row) i r :
  df !! i = Some r -> Servicio r = name ->
  (forall j r', (j < i)%nat -> df !! j = Some r' -> Servicio r' <> name) ->
  exists rest, index_where name df 0 = i :: rest.
Proof.
  intros Hi Hr Hmin.
  destruct (index_where name df 0) as [|k rest] eqn:E.
  - apply index_where_nil in E. exfalso. apply E. rewrite <- Hr.
    apply list_elem_of_fmap_2. by apply list_elem_of_lookup_2 with i.
  - destruct (index_where_head _ _ _ _ _ E) as (j & r' & -> & Hj & Hr' & Hmin').
    simpl. exists rest. f_equal.
    destruct (Nat.lt_trichotomy j i) as [Hlt | [-> | Hgt]]; [|done|].
    + exfalso. by apply (Hmin j r').
    + exfalso. by apply (Hmin' i r).
Qed.

Lemma update_google_sheet_done ws name a w w' out :
  update_google_sheet ws name a w = (Done tt, w', out) ->
  name ∈ names (sheet w) ->
  online w = true /\ out = []
  /\ credited_first (sheet w) name a (sheet w') /\ cache w' = Some (sheet w).
Proof.
  rewrite update_google_sheet_eq. intros Hrun Hin.
  destruct (online w) eqn:Hon; [|discriminate].
  destruct (sheet w) as [|r0 df] eqn:Hs; [discriminate|]. rewrite <- Hs in *.
  destruct (index_where name (sheet w) 0) as [|i rest] eqn:Hidx.
  { by apply index_where_nil in Hidx. }
  destruct (index_where_head _ _ _ _ _ Hidx) as (j & r & -> & Hj & Hr & Hmin).
  simpl in Hrun. rewrite Hj in Hrun.
  destruct (add_amount (loc_aportado (sheet w) r) a) as [[z|t|z|z]|] eqn:Hadd;
    try discriminate.
  - apply add_amount_py_int in Hadd as (z0 & Hloc & ->).
    apply loc_aportado_py_int in Hloc as [Hcell Hdt].
    inversion Hrun; subst. simpl. repeat split; try done.
    exists j, r, z0. done.
  - by apply add_amount_not_str in Hadd.
Qed.

Lemma update_google_sheet_no_rerun ws name a w :
  flow_of (update_google_sheet ws name a w) <> Rerun.
Proof.
  rewrite update_google_sheet_eq.
  destruct (online w); [|discriminate].
  destruct (sheet w) as [|r0 df]; [discriminate|].
  destruct (index_where name (r0 :: df) 0) as [|i rest]; [discriminate|].
  destruct ((r0 :: df) !! i) as [r|]; [|discriminate].
  destruct (add_amount (loc_aportado (r0 :: df) r) a) as [[z|t|z|z]|];
    discriminate.
Qed.

Lemma contribute_thanked ws servicio objetivo aportado max_aporte a w :
  flow_of (contribute ws servicio objetivo aportado max_aporte a w) = Rerun ->
  0 < a /\ aportado + a <= objetivo
  /\ exists w' out,
       update_google_sheet ws servicio a w = (Done tt, w', out)
       /\ contribute ws servicio objetivo aportado max_aporte a w
          = (Rerun, w', out ++ [success_gracias a servicio]).
Proof.
  intros Hflow.
  destruct (Z.le_gt_cases a 0) as [Ha|Ha].
  { by rewrite contribute_not_positive in Hflow. }
  destruct (Z.le_gt_cases (aportado + a) objetivo) as [Hcap|Hcap].
  2: { rewrite contribute_over_capacity in Hflow; [done | lia | lia]. }
  split; [lia|]. split; [done|].
  rewrite contribute_passes_eq in Hflow |- * by lia.
  pose proof (update_google_sheet_no_rerun ws servicio a w) as Hno.
  destruct (update_google_sheet ws servicio a w) as [[f w'] out].
  destruct f as [[]| | |]; try discriminate; [|done]. by exists w', out.
Qed.

Lemma contribute_thanked_written ws servicio objetivo aportado max_aporte a w :
  flow_of (contribute ws servicio objetivo aportado max_aporte a w) = Rerun ->
  servicio ∈ names (sheet w) ->
  0 < a
  /\ credited_first (sheet w) servicio a
       (sheet (world_of (contribute ws servicio objetivo aportado max_aporte a w)))
  /\ cache (world_of (contribute ws servicio objetivo aportado max_aporte a w))
     = Some (sheet w).
Proof.
  intros Hflow Hin.
  destruct (contribute_thanked _ _ _ _ _ _ _ Hflow)
    as (Ha & _ & w' & out & Hupd & ->).
  destruct (update_google_sheet_done _ _ _ _ _ _ Hupd Hin) as (_ & _ & Hcr & Hca).
  done.
Qed.

Lemma NoDup_catering_zeta : NoDup ["Catering"; "Zeta"].
Proof.
  apply NoDup_cons. split; [|apply NoDup_singleton].
  rewrite list_elem_of_singleton. discriminate.
Qed.

Lemma cold_start_blank : cold_start w_blank_480.
Proof. split; [reflexivity | apply NoDup_catering_zeta]. Qed.

Lemma cold_start_catering : cold_start w_catering_480.
Proof. split; [reflexivity | apply NoDup_singleton]. Qed.

(** ** The claims *)




(** C2: the bound [contributed <= target] is lost within one session.
    The sheet holds Catering at 480 of 500 and a service whose Aportado
    cell is blank, on a freshly started server.  A contribution of 20
    brings Catering to 500; the rerun and every later run still render
    480, because the cache was refilled just before the write; a second
    contribution of 20, within the bounds of the input of that run,
    brings the sheet to 520. *)
Lemma target_exceeded_in_one_session :
  let w1 := world_of (app (click "Catering" 20) w_blank_480) in
  let w2 := world_of (app no_click w1) in
  let w3 := world_of (app (click "Catering" 20) w2) in
  cold_start w_blank_480 /\ Forall row_ok (sheet w_blank_480)
  /\ sheet w1 = [catering 500; zeta_blank]
  /\ rendered w2 = [catering 480; zeta_blank]
  /\ 0 <= 20 <= 500 - 480
  /\ sheet w3 = [catering 520; zeta_blank]
  /\ ~ row_ok (catering 520).
Proof.
  repeat split; try reflexivity; try (unfold row_ok; simpl; lia).
  - apply NoDup_catering_zeta.
  - repeat constructor; unfold row_ok; simpl; lia.
Qed.




(** C4: a contribution over the remaining capacity is accepted.  On the
    sheet with a blank Aportado cell, after a contribution of 5 the
    sheet holds 485 of 500 for Catering; the next run still renders 480,
    and a contribution of 16, more than the 15 that remain, is thanked
    and written: the sheet holds 501 and no capacity warning is
    shown. *)
Lemma stale_record_accepts_over_capacity :
  sheet w_blank_after_5 = [catering 485; zeta_blank]
  /\ 485 + 16 > 500
  /\ app (click "Catering" 16) w_blank_after_5
     = (Rerun,
        {| sheet := [catering 501; zeta_blank];
           cache := Some [catering 485; zeta_blank];
           online := true |},
        [subheader "Catering"; progress (48000 # 50000)%Q;
         markdown_monto (Int 480) 500; success_gracias 16 "Catering"]).
Proof. repeat split. Qed.

(** C5: on a sheet of integers the contribution of exactly the remaining
    capacity is not recorded.  Catering stands at 480 of 500 on a freshly
    started server; a contribution of 20 passes the checks, the sheet is
    fetched again, and the write raises: the amount read from the frame
    is a NumPy integer, which [update_cell] cannot send.  No thank-you
    is shown and the sheet still holds 480. *)
Lemma integer_sheet_refuses_exact_remaining :
  app (click "Catering" (500 - 480)) w_catering_480
  = (Raised,
     {| sheet := [catering 480]; cache := Some [catering 480]; online := true |},
     [subheader "Catering"; progress (48000 # 50000)%Q;
      markdown_monto (Int 480) 500]).
Proof. reflexivity. Qed.

(** C6. An amount that is zero or negative is answered with the
    "greater than 0" warning and nothing else happens: no fetch (the cache
    is as before), no write (the sheet is as before). *)
Theorem non_positive_amount_rejected (ws : Worksheet) (servicio : string)
    (objetivo aportado max_aporte a : Z) (w : World) :
  a <= 0 ->
  contribute ws servicio objetivo aportado max_aporte a w
  = (Done tt, w, [warning_mayor_que_0]).
Proof. apply contribute_not_positive. Qed.

Lemma non_positive_amount_rejected_witness :
  -5 <= 0 /\
  contribute first_worksheet "Catering" 500 480 20 (-5) w_catering_480
  = (Done tt, w_catering_480, [warning_mayor_que_0]).
Proof.
  split; [lia|].
  apply (non_positive_amount_rejected first_worksheet "Catering" 500 480 20 (-5)
           w_catering_480); lia.
Defined.

(** C7: a service that is not in the sheet is thanked.  The cache still
    holds Catering, whose row has been removed from the sheet; a
    contribution of 20 to the rendered record shows the "not found"
    error and then the thank-you message, and the run ends with the
    rerun as after a recorded contribution.  Nothing is written.  On a
    sheet without records the same call shows neither message: line 45
    raises. *)
Lemma removed_service_is_thanked :
  ("Catering" ∉ names (sheet w_catering_removed))
  /\ app (click "Catering" 20) w_catering_removed
     = (Rerun,
        {| sheet := sheet w_catering_removed;
           cache := Some (sheet w_catering_removed);
           online := true |},
        [subheader "Catering"; progress (48000 # 50000)%Q;
         markdown_monto (Int 480) 500;
         error_no_encontrado "Catering"; success_gracias 20 "Catering"])
  /\ update_google_sheet first_worksheet "Catering" 20
       {| sheet := []; cache := Some [catering 480]; online := true |}
     = (Raised, {| sheet := []; cache := Some []; online := true |}, []).
Proof.
  repeat split. simpl. rewrite list_elem_of_singleton. discriminate.
Qed.

(** C8: a funded service still takes contributions.  On the sheet with
    a blank Aportado cell, after the contribution of 20 the sheet holds
    500 of 500 for Catering; the next run renders 480 of 500 from the
    cache, offers the input, accepts a contribution of 1 with the
    thank-you message, and writes 501. *)
Lemma funded_service_accepts_more :
  sheet w_blank_after_20 = [catering 500; zeta_blank]
  /\ app (click "Catering" 1) w_blank_after_20
     = (Rerun,
        {| sheet := [catering 501; zeta_blank];
           cache := Some [catering 500; zeta_blank];
           online := true |},
        [subheader "Catering"; progress (48000 # 50000)%Q;
         markdown_monto (Int 480) 500; success_gracias 1 "Catering"]).
Proof. split; reflexivity. Qed.

(** C9. A call of [contribute] that ends with the thank-you message for
    a service that is in the sheet has replaced the amount of the first
    record of that service by the amount the sheet held plus the
    contribution, which is positive, so the new amount is strictly
    greater; and along any sequence of runs every record keeps its name
    and target and its contributed amount never goes down. *)
Theorem contributed_never_decreases :
  (forall servicio objetivo aportado a w,
     flow_of (contribute_row servicio objetivo aportado a w) = Rerun ->
     servicio ∈ names (sheet w) ->
     exists i latest z,
       sheet w !! i = Some latest /\ Servicio latest = servicio
       /\ Aportado latest = Int z
       /\ sheet (world_of (contribute_row servicio objetivo aportado a w))
          = <[i := with_aportado (z + a) latest]> (sheet w)
       /\ z < z + a)
  /\ (forall w w', rtc session_step w w' -> behind (sheet w) (sheet w')).
Proof.
  split; [|apply session_behind].
  intros servicio objetivo aportado a w Hflow Hin. unfold contribute_row in *.
  destruct (contribute_thanked_written _ _ _ _ _ _ _ Hflow Hin)
    as (Ha & (i & latest & z & Hl & Hs & Hz & _ & Hnew) & _).
  exists i, latest, z. repeat split; try done. lia.
Qed.

Lemma contributed_never_decreases_witness :
  (exists i latest z,
     sheet w_blank_480 !! i = Some latest /\ Servicio latest = "Catering"
     /\ Aportado latest = Int z
     /\ sheet (world_of (contribute_row "Catering" 500 480 20 w_blank_480))
        = <[i := with_aportado (z + 20) latest]> (sheet w_blank_480)
     /\ z < z + 20)
  /\ behind (sheet w_blank_480) (sheet w_blank_after_20).
Proof.
  split.
  - apply (proj1 contributed_never_decreases "Catering" 500 480 20 w_blank_480).
    + reflexivity.
    + simpl. left.
  - apply (proj2 contributed_never_decreases w_blank_480 w_blank_after_20).
    apply rtc_once. apply step_run.
Defined.



(** ** Further properties of the three functions *)

(** X1. A run changes the sheet in one way only: the button of a
    rendered record is pressed, its input holds a positive amount within
    the capacity that the rendered record shows, and that amount is added
    to the first record of the sheet with that name; the cache is then
    left holding the sheet as it was before the write.  Nothing else in
    [app] writes, and a run writes at most once. *)
Theorem run_writes_only_through_pressed_button (ui : UI) (w : World) :
  sheet (world_of (app ui w)) = sheet w
  \/ exists row,
       row ∈ rendered w /\ pressed_within ui row
       /\ credited_first (sheet w) (Servicio row)
            (number_input ui (Servicio row)) (sheet (world_of (app ui w)))
       /\ cache (world_of (app ui w)) = Some (sheet w).
Proof.
  destruct (app_outcome ui w) as (w1 & Hl & [-> | (row & Hin & Hp & Hupd)]).
  - left. by apply listed_sheet.
  - pose proof (listed_sheet _ _ Hl) as Hs.
    destruct Hupd as [| |i latest z Hon Hdt Hi Hn Hz Hmin]; simpl;
      [by left | by left |].
    right. exists row. rewrite <- Hs.
    split; [done|]. split; [done|]. split; [|done].
    exists i, latest, z. done.
Qed.

(** X2. When the cache is empty or holds the sheet as it stands, and the
    names in the sheet are distinct, a run keeps every record within
    [0 <= contributed <= target], whatever buttons are pressed and
    whatever the inputs hold. *)
Theorem current_view_keeps_target (ui : UI) (w : World) :
  cache_current w -> NoDup (names (sheet w)) ->
  Forall row_ok (sheet w) ->
  Forall row_ok (sheet (world_of (app ui w))).
Proof.
  intros Hcur Hnd Hok.
  destruct (app_outcome ui w) as (w1 & Hl & [-> | (row & Hin & Hp & Hupd)]).
  { by rewrite (listed_sheet _ _ Hl). }
  pose proof (listed_sheet _ _ Hl) as Hs.
  destruct Hupd as [| |i latest z Hon Hdt Hi Hn Hz Hmin]; simpl;
    [by rewrite Hs | by rewrite Hs |].
  rewrite Hs in Hi |- *.
  rewrite (rendered_current w Hcur), sort_values_elem_of in Hin.
  apply list_elem_of_lookup_1 in Hin as [j Hj].
  destruct (same_name_same_record _ _ _ _ _ Hnd Hi Hj Hn) as [_ ->].
  destruct Hp as (_ & Ha & v & Hv & Hcap).
  apply Forall_insert; [done|].
  pose proof (proj1 (Forall_lookup _ _) Hok j row Hj) as Hrow.
  unfold row_ok in *. rewrite Hz in Hrow. rewrite Hz in Hv.
  injection Hv as <-. simpl. lia.
Qed.

Lemma current_view_keeps_target_witness :
  Forall row_ok (sheet (world_of (app (click "Catering" 20) w_blank_480))).
Proof.
  apply (current_view_keeps_target (click "Catering" 20) w_blank_480).
  - left. reflexivity.
  - apply NoDup_catering_zeta.
  - repeat constructor; unfold row_ok; simpl; lia.
Defined.

(** X3. No sequence of runs, cache expiries and connectivity changes
    makes a contributed amount negative. *)
Theorem contributed_stays_non_negative (w w' : World) :
  rtc session_step w w' ->
  Forall non_negative (sheet w) -> Forall non_negative (sheet w').
Proof.
  intros Hsteps Hnn. apply session_behind in Hsteps.
  unfold behind in Hsteps.
  induction Hsteps as [|r r' df df' (_ & _ & Hle) _ IH]; [done|].
  apply Forall_cons in Hnn as [Hr Hdf].
  constructor; [|by apply IH]. unfold non_negative in *.
  destruct (Aportado r), (Aportado r'); simpl in Hle; try done. lia.
Qed.

Lemma contributed_stays_non_negative_witness :
  Forall non_negative (sheet w_blank_after_20).
Proof.
  apply (contributed_stays_non_negative w_blank_480 w_blank_after_20).
  - apply rtc_once. apply step_run.
  - repeat constructor; unfold non_negative; simpl; lia.
Defined.

(** X4. In every world a session can be in, the memoised snapshot lists
    the same services with the same targets as the sheet, record by
    record, and never shows more contributed than the sheet holds; the
    names in the sheet stay distinct. *)
Theorem cached_snapshot_is_a_past_sheet (w : World) (df : list Row) :
  reachable w -> cache w = Some df ->
  behind df (sheet w) /\ NoDup (names (sheet w)).
Proof.
  intros Hreach Hc. destruct (reachable_inv w Hreach) as [Hnd Hbeh].
  split; [by apply Hbeh | done].
Qed.

Lemma cached_snapshot_is_a_past_sheet_witness :
  behind [catering 480; zeta_blank] (sheet w_blank_after_20)
  /\ NoDup (names (sheet w_blank_after_20)).
Proof.
  apply (cached_snapshot_is_a_past_sheet w_blank_after_20
           [catering 480; zeta_blank]).
  - exists w_blank_480. split; [apply cold_start_blank|].
    apply rtc_once. apply step_run.
  - reflexivity.
Defined.

(** X5. After a run that has changed the sheet, the cache holds the
    sheet as it was before the write, and that is what the next listing
    returns; a listing made once the cache entry has been dropped
    returns the sheet as written. *)
Theorem listing_after_write_is_the_old_sheet (ui : UI) (w : World) :
  let w' := world_of (app ui w) in
  sheet w' <> sheet w ->
  listServices w' = (Done (sort_values (sheet w), first_worksheet), w', [])
  /\ listServices (ttl_expired w')
     = (Done (sort_values (sheet w'), first_worksheet),
        set_cache (Some (sheet w')) w', []).
Proof.
  intros w' Hchanged. subst w'.
  destruct (app_outcome ui w) as (w1 & Hl & [Hw | (row & Hin & Hp & Hupd)]).
  { exfalso. apply Hchanged. rewrite Hw. by apply listed_sheet. }
  pose proof (listed_sheet _ _ Hl) as Hs.
  destruct Hupd as [| |i latest z Hon Hdt Hi Hn Hz Hmin];
    [by exfalso; apply Hchanged | by exfalso; apply Hchanged |].
  rewrite !listServices_cases. simpl. rewrite Hs, Hon.
  assert (Hne : sheet w <> []).
  { rewrite Hs in Hi. intros Hnil. by rewrite Hnil in Hi. }
  split.
  - by destruct (sheet w).
  - rewrite Hs in Hi. apply lookup_lt_Some in Hi.
    destruct (<[i:=with_aportado (z + number_input ui (Servicio row)) latest]>
                (sheet w)) as [|r df] eqn:Hins; [|done].
    apply (f_equal length) in Hins. rewrite length_insert in Hins.
    simpl in Hins. lia.
Qed.

Lemma listing_after_write_is_the_old_sheet_witness :
  listServices w_blank_after_20
  = (Done (sort_values (sheet w_blank_480), first_worksheet), w_blank_after_20, [])
  /\ listServices (ttl_expired w_blank_after_20)
     = (Done (sort_values (sheet w_blank_after_20), first_worksheet),
        set_cache (Some (sheet w_blank_after_20)) w_blank_after_20, []).
Proof.
  apply (listing_after_write_is_the_old_sheet (click "Catering" 20) w_blank_480).
  vm_compute. discriminate.
Defined.

Lemma click_pressed s a row :
  pressed_within (click s a) row ->
  Servicio row = s /\ number_input (click s a) (Servicio row) = a.
Proof.
  intros (Hb & _). simpl in Hb. apply String.eqb_eq in Hb.
  split; [done|]. simpl. by rewrite Hb, String.eqb_refl.
Qed.

(** A run in which only the button of [s] is pressed and which changes
    the sheet has added the input to the record of [s]. *)
Lemma click_written s a w i latest z :
  NoDup (names (sheet w)) ->
  sheet w !! i = Some latest -> Servicio latest = s -> Aportado latest = Int z ->
  sheet (world_of (app (click s a) w)) <> sheet w ->
  sheet (world_of (app (click s a) w)) = <[i := with_aportado (z + a) latest]> (sheet w).
Proof.
  intros Hnd Hi Hs Hz Hchanged.
  destruct (app_outcome (click s a) w)
    as (w1 & Hl & [Hw | (row & Hin & Hp & Hupd)]).
  { exfalso. apply Hchanged. rewrite Hw. by apply listed_sheet. }
  pose proof (listed_sheet _ _ Hl) as Hs1.
  destruct (click_pressed _ _ _ Hp) as [Hrow Hinput].
  rewrite Hrow in Hupd. simpl in Hupd. rewrite String.eqb_refl in Hupd.
  destruct Hupd as [| |i' latest' z' Hon Hdt Hi' Hn' Hz' Hmin];
    [by exfalso; apply Hchanged | by exfalso; apply Hchanged |].
  simpl. rewrite Hs1 in Hi' |- *.
  assert (Hsame : Servicio latest' = Servicio latest) by congruence.
  destruct (same_name_same_record _ _ _ _ _ Hnd Hi' Hi Hsame) as [-> ->].
  congruence.
Qed.

(** X6. When two contributions to one service in consecutive runs are
    both written, the sheet ends with both added to the amount it held:
    no contribution is lost, and nothing holds the sum under the
    target. *)
Theorem contributions_add_up (w : World) (i : nat) (latest : Row) (z a1 a2 : Z) :
  NoDup (names (sheet w)) ->
  sheet w !! i = Some latest -> Aportado latest = Int z ->
  let s := Servicio latest in
  let w1 := world_of (app (click s a1) w) in
  let w2 := world_of (app (click s a2) w1) in
  sheet w1 <> sheet w -> sheet w2 <> sheet w1 ->
  sheet w2 = <[i := with_aportado (z + a1 + a2) latest]> (sheet w).
Proof.
  intros Hnd Hi Hz s w1 w2 H1 H2. subst w1 w2.
  pose proof (click_written s a1 w i latest z Hnd Hi eq_refl Hz H1) as E1.
  assert (Hlt : (i < length (sheet w))%nat) by by eapply lookup_lt_Some.
  rewrite (click_written s a2 (world_of (app (click s a1) w)) i
             (with_aportado (z + a1) latest) (z + a1)); try done.
  - rewrite E1, list_insert_insert_eq. done.
  - rewrite E1. by rewrite names_written.
  - rewrite E1. by apply list_lookup_insert_eq.
Qed.

Lemma contributions_add_up_witness :
  sheet (world_of (app (click "Catering" 15)
                     (world_of (app (click "Catering" 10) w_blank_480))))
  = [catering 505; zeta_blank].
Proof.
  apply (contributions_add_up w_blank_480 0 (catering 480) 480 10 15).
  - apply NoDup_catering_zeta.
  - reflexivity.
  - reflexivity.
  - vm_compute. discriminate.
  - vm_compute. discriminate.
Defined.

(** X7. When the rendered service is no longer in a sheet that still has
    records, an amount that passes the checks of [contribute] is
    answered with the "not found" error followed by the thank-you
    message and a rerun; nothing is written, and the cache is refilled
    with the sheet. *)
Theorem unknown_service_is_thanked (ws : Worksheet) (servicio : string)
    (objetivo aportado max_aporte a : Z) (w : World) :
  online w = true -> 0 < a -> aportado + a <= objetivo ->
  sheet w <> [] -> servicio ∉ names (sheet w) ->
  contribute ws servicio objetivo aportado max_aporte a w
  = (Rerun, set_cache (Some (sheet w)) w,
     [error_no_encontrado servicio; success_gracias a servicio]).
Proof.
  intros Hon Ha Hcap Hne Habs. rewrite contribute_passes_eq by done.
  rewrite update_google_sheet_eq, Hon.
  apply (index_where_nil servicio (sheet w) 0) in Habs.
  destruct (sheet w) as [|r0 df] eqn:Hs; [done|].
  by rewrite Habs.
Qed.

Lemma unknown_service_is_thanked_witness :
  contribute first_worksheet "Flores" 100 90 10 10 w_catering_480
  = (Rerun, set_cache (Some [catering 480]) w_catering_480,
     [error_no_encontrado "Flores"; success_gracias 10 "Flores"]).
Proof.
  apply (unknown_service_is_thanked first_worksheet "Flores" 100 90 10 10
           w_catering_480).
  - reflexivity.
  - lia.
  - lia.
  - discriminate.
  - simpl. rewrite list_elem_of_singleton. discriminate.
Defined.

(** X8. When the sheet cannot be reached, an amount that passes the
    checks of [contribute] ends the run with the connection error: no
    thank-you message, no write; and the cache entry is gone, so the next
    listing fails as well, even if a snapshot was memoised before. *)
Theorem unreachable_store_drops_cache (ws : Worksheet) (servicio : string)
    (objetivo aportado max_aporte a : Z) (w : World) :
  online w = false -> 0 < a -> aportado + a <= objetivo ->
  contribute ws servicio objetivo aportado max_aporte a w
  = (Stopped, set_cache None w, [error_conexion])
  /\ listServices (set_cache None w) = (Stopped, set_cache None w, [error_conexion]).
Proof.
  intros Hoff Ha Hcap. split.
  - rewrite contribute_passes_eq by done.
    by rewrite update_google_sheet_eq, Hoff.
  - rewrite listServices_cases. simpl. by rewrite Hoff.
Qed.

Lemma unreachable_store_drops_cache_witness :
  contribute first_worksheet "Catering" 500 480 20 20
    {| sheet := [catering 480]; cache := Some [catering 480]; online := false |}
  = (Stopped,
     {| sheet := [catering 480]; cache := None; online := false |},
     [error_conexion]).
Proof.
  apply (unreachable_store_drops_cache first_worksheet "Catering" 500 480 20 20
           {| sheet := [catering 480]; cache := Some [catering 480]; online := false |}).
  - reflexivity.
  - lia.
  - lia.
Defined.

(** X9. Once a listing has succeeded, the next one returns the same
    records without touching the world, whether or not the sheet can
    still be reached. *)
Theorem second_listing_served_from_cache (w w1 : World)
    (r : DataFrame * Worksheet) (out : list Msg) (b : bool) :
  listServices w = (Done r, w1, out) ->
  listServices (set_online b w1) = (Done r, set_online b w1, []).
Proof.
  rewrite !listServices_cases. simpl.
  destruct (cache w) as [[|r0 df]|] eqn:Hc; [discriminate | |].
  - intros [= <- <- <-]. by rewrite Hc.
  - destruct (online w); [|discriminate].
    destruct (sheet w) as [|r0 df] eqn:Hs; [discriminate|].
    intros [= <- <- <-]. reflexivity.
Qed.

Lemma second_listing_served_from_cache_witness :
  listServices (set_online false (set_cache (Some [catering 480]) w_catering_480))
  = (Done ([catering 480], first_worksheet),
     set_online false (set_cache (Some [catering 480]) w_catering_480), []).
Proof.
  apply (second_listing_served_from_cache w_catering_480
           (set_cache (Some [catering 480]) w_catering_480)
           ([catering 480], first_worksheet) [] false).
  reflexivity.
Defined.

(** X10. With an empty cache and the sheet out of reach, a run shows the
    connection error and nothing else: no record is rendered, the final
    note is not shown, and the world is as before. *)
Theorem run_without_store_shows_only_error (ui : UI) (w : World) :
  cache w = None -> online w = false ->
  app ui w = (Stopped, w, [error_conexion]).
Proof.
  intros Hc Hoff. unfold app, bind at 1. rewrite listServices_cases.
  by rewrite Hc, Hoff.
Qed.

Lemma run_without_store_shows_only_error_witness :
  app (click "Catering" 20) (set_online false w_catering_480)
  = (Stopped, set_online false w_catering_480, [error_conexion]).
Proof.
  apply (run_without_store_shows_only_error (click "Catering" 20)
           (set_online false w_catering_480)); reflexivity.
Defined.

(** A record whose button is not pressed is displayed, or its rendering
    raises; the world is not touched. *)
Lemma render_row_no_button ui ws keys row w :
  button ui (Servicio row) = false ->
  exists f out,
    render_row ui ws keys row w = (f, w, out)
    /\ ((exists keys', f = Done keys') \/ f = Raised) /\ Forall displays out.
Proof.
  intros Hb. unfold render_row, progreso_de, st_progress, st_number_input.
  destruct (Aportado row) as [v|t] eqn:Hv.
  2: { destruct (Objetivo row >? 0).
       - do 2 eexists. split; [reflexivity|]. split; [by right | constructor].
       - do 2 eexists. split; [reflexivity|]. split; [by right|].
         by repeat constructor. }
  unfold bind, ret, show, raise. rewrite Hb.
  destruct (Qle_bool 0 (progreso_porcentaje v (Objetivo row) / 100)
            && Qle_bool (progreso_porcentaje v (Objetivo row) / 100) 1).
  2: { do 2 eexists. split; [reflexivity|]. split; [by right|].
       by repeat constructor. }
  destruct (v >=? Objetivo row).
  { do 2 eexists. split; [reflexivity|]. split; [left; eauto|].
    by repeat constructor. }
  destruct (existsb (String.eqb (Servicio row)) keys).
  { do 2 eexists. split; [reflexivity|]. split; [by right|].
    by repeat constructor. }
  destruct ((0 <=? Objetivo row - v) && (Objetivo row - v <=? js_max_safe_integer)).
  - do 2 eexists. split; [reflexivity|]. split; [left; eauto|].
    by repeat constructor.
  - do 2 eexists. split; [reflexivity|]. split; [by right|].
    by repeat constructor.
Qed.

Lemma for_rows_no_button ui ws keys rows w :
  (forall k, button ui k = false) ->
  exists f out,
    for_rows ui ws keys rows w = (f, w, out)
    /\ (f = Done tt \/ f = Raised) /\ Forall displays out.
Proof.
  intros Hb. revert keys. induction rows as [|row rows IH]; intros keys; simpl.
  { do 2 eexists. split; [reflexivity|]. split; [by left | constructor]. }
  unfold bind.
  destruct (render_row_no_button ui ws keys row w (Hb _))
    as (f & out & -> & Hf & Hout).
  destruct Hf as [[keys' ->] | ->].
  - destruct (IH keys') as (f2 & out2 & -> & Hf2 & Hout2).
    do 2 eexists. split; [reflexivity|]. split; [done|].
    by apply Forall_app.
  - do 2 eexists. split; [reflexivity|]. split; [by right | done].
Qed.

Lemma listServices_sheet w : sheet (world_of (listServices w)) = sheet w.
Proof.
  rewrite listServices_cases.
  destruct (cache w) as [[|r0 df0]|]; [done | done |].
  destruct (online w); [|done].
  destruct (sheet w) eqn:Hs; simpl; by rewrite Hs.
Qed.

Lemma app_no_button ui w :
  (forall k, button ui k = false) ->
  exists f out,
    app ui w = (f, world_of (listServices w), out)
    /\ f <> Rerun
    /\ (forall m, m ∈ out -> displays m \/ m = error_conexion).
Proof.
  intros Hb.
  assert (Hrows : forall df w1,
            exists f out,
              (for_rows ui first_worksheet [] df ;;; show info_final) w1 = (f, w1, out)
              /\ f <> Rerun
              /\ (forall m, m ∈ out -> displays m \/ m = error_conexion)).
  { intros df w1. unfold bind.
    destruct (for_rows_no_button ui first_worksheet [] df w1 Hb)
      as (f & out & -> & Hf & Hout).
    destruct Hf as [-> | ->]; simpl.
    - do 2 eexists. split; [reflexivity|]. split; [done|].
      intros m Hm. left. rewrite elem_of_app, list_elem_of_singleton in Hm.
      destruct Hm as [Hm | ->]; [|done].
      by apply (proj1 (Forall_forall _ _) Hout).
    - do 2 eexists. split; [reflexivity|]. split; [done|].
      intros m Hm. left. by apply (proj1 (Forall_forall _ _) Hout). }
  unfold app. unfold bind at 1. rewrite listServices_cases.
  destruct (cache w) as [[|r0 df0]|].
  - do 2 eexists. split; [reflexivity|]. split; [done|].
    intros m Hm. by apply elem_of_nil in Hm.
  - simpl. destruct (Hrows (sort_values (r0 :: df0)) w) as (f & out & -> & Hf & Hout).
    by do 2 eexists.
  - destruct (online w).
    + destruct (sheet w) as [|r0 df0].
      * do 2 eexists. split; [reflexivity|]. split; [done|].
        intros m Hm. by apply elem_of_nil in Hm.
      * simpl.
        destruct (Hrows (sort_values (r0 :: df0))
                    (set_cache (Some (r0 :: df0)) w))
          as (f & out & -> & Hf & Hout).
        by do 2 eexists.
    + do 2 eexists. split; [reflexivity|]. split; [done|].
      intros m Hm. apply list_elem_of_singleton in Hm. by right.
Qed.

(** X11. A run in which no button is pressed only reads: the world is
    left as the listing leaves it, so the sheet is not written; the run
    never ends with a rerun; and the page shows records and the final
    note, or the connection error, and no thank-you message or
    warning. *)
Theorem run_without_button_only_reads (ui : UI) (w : World) :
  (forall k, button ui k = false) ->
  world_of (app ui w) = world_of (listServices w)
  /\ sheet (world_of (app ui w)) = sheet w
  /\ flow_of (app ui w) <> Rerun
  /\ (forall m, m ∈ shown (app ui w) -> displays m \/ m = error_conexion).
Proof.
  intros Hb. destruct (app_no_button ui w Hb) as (f & out & -> & Hf & Hout).
  simpl. split; [done|]. split; [apply listServices_sheet | done].
Qed.

Lemma run_without_button_only_reads_witness :
  world_of (app no_click w_blank_after_20) = world_of (listServices w_blank_after_20)
  /\ sheet (world_of (app no_click w_blank_after_20)) = sheet w_blank_after_20
  /\ flow_of (app no_click w_blank_after_20) <> Rerun
  /\ (forall m, m ∈ shown (app no_click w_blank_after_20) ->
        displays m \/ m = error_conexion).
Proof.
  apply (run_without_button_only_reads no_click w_blank_after_20).
  reflexivity.
Defined.

(** X12. For a contributed amount that is not negative, the value handed
    to [st.progress] lies between 0 and 1, whatever the target. *)
Theorem progress_value_in_unit_interval (aportado objetivo : Z) :
  0 <= aportado ->
  (0 <= progreso_porcentaje aportado objetivo / 100
   /\ progreso_porcentaje aportado objetivo / 100 <= 1)%Q.
Proof.
  intros Ha. unfold progreso_porcentaje.
  destruct (Z.gtb_spec objetivo 0) as [Hpos|Hnpos].
  - split.
    + apply Qle_shift_div_l; [reflexivity|]. rewrite Qmult_0_l.
      apply Q.min_glb; [discriminate|].
      apply Qmult_le_0_compat; [|discriminate].
      apply Qle_shift_div_l.
      * change 0%Q with (inject_Z 0). rewrite <- Zlt_Qlt. lia.
      * rewrite Qmult_0_l. change 0%Q with (inject_Z 0). rewrite <- Zle_Qle. lia.
    + apply Qle_shift_div_r; [reflexivity|]. rewrite Qmult_1_l.
      apply Q.le_min_l.
  - split; discriminate.
Qed.

Lemma progress_value_in_unit_interval_witness :
  (0 <= progreso_porcentaje 480 500 / 100
   /\ progreso_porcentaje 480 500 / 100 <= 1)%Q.
Proof.
  apply (progress_value_in_unit_interval 480 500). lia.
Defined.

(** X13. A listing that succeeds returns the records of the memoised
    snapshot, all of them and no others, in ascending order of name. *)
Theorem listing_is_sorted_by_name (w w' : World) (df : DataFrame)
    (ws : Worksheet) (out : list Msg) :
  listServices w = (Done (df, ws), w', out) ->
  Sorted by_servicio df
  /\ exists snapshot, cache w' = Some snapshot /\ df ≡ₚ snapshot.
Proof.
  assert (Htotal : Total by_servicio).
  { intros r1 r2. apply String.leb_total. }
  rewrite listServices_cases.
  destruct (cache w) as [[|r0 snap]|] eqn:Hc; [discriminate | |].
  - intros H. inversion H; subst. split; [by apply Sorted_merge_sort|].
    exists (r0 :: snap). split; [done | apply merge_sort_Permutation].
  - destruct (online w); [|discriminate].
    destruct (sheet w) as [|r0 rest] eqn:Hs; [discriminate|].
    intros H. inversion H; subst. split; [by apply Sorted_merge_sort|].
    exists (r0 :: rest). split; [done | apply merge_sort_Permutation].
Qed.

Lemma listing_is_sorted_by_name_witness :
  Sorted by_servicio [catering 480]
  /\ exists snapshot,
       cache (set_cache (Some [catering 480]) w_catering_480) = Some snapshot
       /\ [catering 480] ≡ₚ snapshot.
Proof.
  apply (listing_is_sorted_by_name w_catering_480
           (set_cache (Some [catering 480]) w_catering_480)
           [catering 480] first_worksheet []).
  reflexivity.
Defined.

(** X14. [update_google_sheet] checks neither sign nor capacity.  With
    the sheet in reach and an Aportado column that pandas reads as an
    object column, for any integer amount, negative or over the target
    included, it adds the amount to the integer of the first record with
    the given name, leaves the other records as they are, shows nothing,
    and leaves the sheet as it was before the write in the cache. *)
Theorem update_credits_first_match (ws : Worksheet) (name : string)
    (amount : Z) (w : World) (i : nat) (latest : Row) (z : Z) :
  online w = true -> aportado_dtype (sheet w) = dtype_object ->
  sheet w !! i = Some latest -> Servicio latest = name ->
  Aportado latest = Int z ->
  (forall j r, (j < i)%nat -> sheet w !! j = Some r -> Servicio r <> name) ->
  update_google_sheet ws name amount w
  = (Done tt,
     {| sheet := <[i := with_aportado (z + amount) latest]> (sheet w);
        cache := Some (sheet w);
        online := true |}, []).
Proof.
  intros Hon Hdt Hi Hn Hz Hmin.
  rewrite update_google_sheet_eq, Hon.
  destruct (index_where_first name (sheet w) i latest Hi Hn Hmin) as [rest Hidx].
  destruct (sheet w) as [|r0 df] eqn:Hs; [done|]. rewrite <- Hs in *.
  rewrite Hidx, Hi, (loc_aportado_object _ _ z Hdt Hz). reflexivity.
Qed.

Lemma update_credits_first_match_witness :
  update_google_sheet first_worksheet "Catering" (-30) w_blank_480
  = (Done tt,
     {| sheet := [catering 450; zeta_blank];
        cache := Some [catering 480; zeta_blank];
        online := true |}, []).
Proof.
  apply (update_credits_first_match first_worksheet "Catering" (-30)
           w_blank_480 0 (catering 480) 480).
  - reflexivity.
  - reflexivity.
  - reflexivity.
  - reflexivity.
  - reflexivity.
  - intros j r Hlt. lia.
Defined.

(** X15. For an amount within the bounds of the number input
    ([min_value=0], [max_value=max_aporte]) the capacity warning is never
    shown: zero gets the "greater than 0" warning, and every positive
    amount goes on to [update_google_sheet]. *)
Theorem input_bounds_exclude_capacity_warning (ws : Worksheet) (servicio : string)
    (objetivo aportado a : Z) (w : World) :
  0 <= a <= objetivo - aportado ->
  forall x m,
    warning_supera x m
    ∉ shown (contribute ws servicio objetivo aportado (objetivo - aportado) a w).
Proof.
  intros [Hlo Hhi] x m.
  destruct (Z.eq_dec a 0) as [->|Hne].
  { rewrite contribute_not_positive by lia. simpl.
    rewrite list_elem_of_singleton. discriminate. }
  rewrite contribute_passes_eq by lia.
  destruct (update_google_sheet_outcome ws servicio a w)
    as (f & w' & out & -> & _ & Hout).
  assert (Hno : warning_supera x m ∉ out).
  { intros Hin. by destruct (Hout _ Hin). }
  destruct f as [[]| | |]; simpl; try done.
  rewrite elem_of_app, list_elem_of_singleton.
  intros [Hin | Heq]; [done | discriminate].
Qed.

Lemma input_bounds_exclude_capacity_warning_witness :
  warning_supera 20 20
  ∉ shown (contribute first_worksheet "Catering" 500 480 (500 - 480) 20
             w_catering_480).
Proof.
  apply (input_bounds_exclude_capacity_warning first_worksheet "Catering"
           500 480 20 w_catering_480).
  lia.
Defined.

(** X16. On a sheet whose Aportado cells all hold integers that fit 64
    signed bits no contribution is ever recorded.  A run leaves the
    sheet as it is, whatever button is pressed; and a call of
    [contribute] for a service of the sheet that passes the checks of
    lines 117 and 119 ends with the exception raised by [update_cell],
    after the sheet has been fetched again: no thank-you message, no
    rerun.  The amounts are those a number input can hold, which fit 64
    bits as well. *)
Theorem integer_sheet_is_never_written (ui : UI) (w : World)
    (servicio : string) (objetivo aportado a : Z) :
  all_int64 (sheet w) ->
  (forall k, in_int64 (number_input ui k)) ->
  sheet (world_of (app ui w)) = sheet w
  /\ (online w = true -> servicio ∈ names (sheet w) ->
      0 < a -> aportado + a <= objetivo -> in_int64 a ->
      contribute_row servicio objetivo aportado a w
      = (Raised, set_cache (Some (sheet w)) w, [])).
Proof.
  intros Hall Hinputs. split.
  - destruct (app_outcome ui w) as (w1 & Hl & [-> | (row & _ & _ & Hupd)]).
    { by apply listed_sheet. }
    pose proof (listed_sheet _ _ Hl) as Hs.
    destruct Hupd as [| |i latest z Hon Hdt Hi Hn Hz Hmin]; simpl; try done.
    rewrite Hs, (all_int64_dtype _ Hall) in Hdt. discriminate.
  - intros Hon Hin Ha Hcap Hfit. unfold contribute_row.
    rewrite contribute_passes_eq by done.
    rewrite update_google_sheet_eq, Hon.
    destruct (index_where servicio (sheet w) 0) as [|i rest] eqn:Hidx.
    { by apply index_where_nil in Hidx. }
    destruct (index_where_head _ _ _ _ _ Hidx) as (j & r & -> & Hj & Hr & _).
    simpl. rewrite Hj.
    destruct (sheet w) as [|r0 df] eqn:Hs; [done|]. rewrite <- Hs in *.
    assert (Hcell : exists v, Aportado r = Int v).
    { pose proof (proj1 (Forall_lookup _ _) Hall j r Hj) as (v & Hv & _). eauto. }
    destruct Hcell as [v Hv].
    unfold loc_aportado. rewrite Hv, (all_int64_dtype _ Hall). simpl.
    by destruct (_ && _).
Qed.

Lemma integer_sheet_is_never_written_witness :
  sheet (world_of (app (click "Catering" 20) w_catering_480)) = sheet w_catering_480
  /\ contribute_row "Catering" 500 480 20 w_catering_480
     = (Raised, set_cache (Some (sheet w_catering_480)) w_catering_480, []).
Proof.
  assert (H20 : in_int64 20) by (unfold in_int64, int64_min, int64_max; lia).
  assert (H0 : in_int64 0) by (unfold in_int64, int64_min, int64_max; lia).
  destruct (integer_sheet_is_never_written (click "Catering" 20) w_catering_480
              "Catering" 500 480 20) as [Hsheet Hcall].
  - repeat constructor. exists 480. split; [reflexivity|].
    unfold in_int64, int64_min, int64_max. lia.
  - intros k. simpl. by destruct (String.eqb k "Catering").
  - split; [exact Hsheet|].
    apply Hcall; [reflexivity | simpl; left | lia | lia | exact H20].
Defined.
